(** * DeepPotPD: the Paddle backend adapter of Deep Potential

    A model of [source/api_cc/include/DeepPotPD.h]: the class [DeepPotPD],
    its data members, the member functions defined in the header
    ([cutoff], [numb_types], [numb_types_spin], [dim_fparam], [dim_aparam],
    [is_aparam_nall], [print_shape], [numel]) and the declarations of the
    evaluation entry points.

    Conventions.
    - A C++ [int] is a [Z] in the range of [Int32]; arithmetic on it wraps
      modulo 2^32 ([Int32.wrap]).
    - A [double] is a binary64 [float].
    - A member function is a computation in the monad [M]: it reads and
      writes the object ([this]) and the standard output ([cout]), and it
      stops with [AssertionFailed] when an [assert] does not hold (the
      model takes [assert] as enabled, that is, without [NDEBUG]).
    - A smart pointer is an [option]: [None] is the null pointer, and a
      call through it stops with [NullDereference]. *)

From Stdlib Require Import ZArith List String Ascii Bool Lia Floats DecimalString.
From Stdlib Require Import Permutation DecimalZ DecimalPos.
Import ListNotations.

Local Open Scope string_scope.
Local Open Scope Z_scope.

(** ** The C++ type [int] *)

Module Int32.

Definition INT_MIN : Z := - 2 ^ 31.
Definition INT_MAX : Z := 2 ^ 31 - 1.

Definition in_range (z : Z) : Prop := INT_MIN <= z <= INT_MAX.

(** The representative of [z] modulo 2^32 in the range of [int]. *)
Definition wrap (z : Z) : Z := (z + 2 ^ 31) mod 2 ^ 32 - 2 ^ 31.

(** [a * b] on [int]. *)
Definition mul (a b : Z) : Z := wrap (a * b).

(** Conversion of a [std::size_t] to [int]. *)
Definition of_size (n : nat) : Z := wrap (Z.of_nat n).

(** Conversion of an [int] to [bool]. *)
Definition to_bool (z : Z) : bool := negb (z =? 0).

(** [std::to_string(int)]: decimal digits, with a leading minus sign
    for a negative number. *)
Definition to_string (z : Z) : string := NilZero.string_of_int (Z.to_int z).

End Int32.

(** ** Types of the inference engine and of the host framework *)

(** The two inference graphs of a serialized model. *)
Inductive Graph : Type :=
| forward         (* model.forward: the direct graph *)
| forward_lower.  (* model.forward_lower: the lower, message-passing graph *)

(** Where the serialized model is read from. *)
Inductive ModelSource : Type :=
| FromFile (name : string)
| FromString (content : string).

(** [paddle_infer::Config], as far as this adapter sets it up. *)
Record Config : Type := mkConfig {
  cfg_graph : Graph;
  cfg_source : ModelSource;
  cfg_gpu_rank : Z
}.

(** [paddle_infer::Predictor]: built from a configuration. *)
Record Predictor : Type := mkPredictor {
  pred_config : Config
}.

(** [paddle_infer::Tensor]: the adapter only asks a tensor for its shape
    in the functions of this header. *)
Record Tensor : Type := mkTensor {
  shape : list Z
}.

(** [NeighborListData]: the neighbour list copied from the host. *)
Record NeighborListData : Type := mkNeighborListData {
  ilist : list Z;
  jlist : list (list Z);
  numneigh : list Z
}.

(** [InputNlist]: the neighbour list handed in by the caller. *)
Record InputNlist : Type := mkInputNlist {
  inum : Z;
  in_ilist : list Z;
  in_numneigh : list Z;
  in_firstneigh : list (list Z)
}.

(** ** The class [DeepPotPD] *)

Record DeepPotPD : Type := mkDeepPotPD {
  num_intra_nthreads : Z;
  num_inter_nthreads : Z;
  inited : bool;
  ntypes : Z;
  ntypes_spin : Z;
  dfparam : Z;
  daparam : Z;
  aparam_nall : Z;
  (* config & predictor for model.forward *)
  config : option Config;
  predictor : option Predictor;
  (* config & predictor for model.forward_lower *)
  config_fl : option Config;
  predictor_fl : option Predictor;
  rcut : float;
  nlist_data : NeighborListData;
  max_num_neighbors : Z;
  gpu_id : Z;
  do_message_passing : Z;
  gpu_enabled : bool;
  firstneigh_tensor : option Tensor
}.

(** ** Member functions as computations *)

(** What a member function can read and change: the object, the standard
    output, and the engine, of which the model keeps the predictors that
    were run, in the order of the calls. *)
Record World : Type := mkWorld {
  this : DeepPotPD;
  cout : string;
  engine_trace : list Predictor
}.

Inductive outcome (A : Type) : Type :=
| Returned (a : A) (w : World)
| AssertionFailed
| NullDereference.

Arguments Returned {A} a w.
Arguments AssertionFailed {A}.
Arguments NullDereference {A}.

Definition M (A : Type) : Type := World -> outcome A.

Definition ret {A} (a : A) : M A := fun w => Returned a w.

Definition bind {A B} (m : M A) (k : A -> M B) : M B :=
  fun w => match m w with
           | Returned a w' => k a w'
           | AssertionFailed => AssertionFailed
           | NullDereference => NullDereference
           end.

Notation "x <- m ;; k" := (bind m (fun x => k))
  (at level 61, m at next level, right associativity).
Notation "m ;;; k" := (bind m (fun _ => k))
  (at level 61, right associativity).

(** Read a data member of [*this]. *)
Definition member {A} (field : DeepPotPD -> A) : M A :=
  fun w => Returned (field (this w)) w.

(** [assert(b)]. *)
Definition assert (b : bool) : M unit :=
  fun w => if b then Returned tt w else AssertionFailed.

(** [std::cout << s]. *)
Definition cout_write (s : string) : M unit :=
  fun w => Returned tt (mkWorld (this w) (cout w ++ s) (engine_trace w)).

(** *** The accessors *)

Definition cutoff : M float :=
  b <- member inited ;; assert b ;;;
  member rcut.

Definition numb_types : M Z :=
  b <- member inited ;; assert b ;;;
  member ntypes.

Definition numb_types_spin : M Z :=
  b <- member inited ;; assert b ;;;
  member ntypes_spin.

Definition dim_fparam : M Z :=
  b <- member inited ;; assert b ;;;
  member dfparam.

Definition dim_aparam : M Z :=
  b <- member inited ;; assert b ;;;
  member daparam.

Definition is_aparam_nall : M bool :=
  b <- member inited ;; assert b ;;;
  v <- member aparam_nall ;;
  ret (Int32.to_bool v).

(** *** [print_shape] *)

(** The body of the [for] loop, run [steps] times from index [i]. *)
Fixpoint print_shape_loop (x_shape : list Z) (steps : nat) (i : Z)
    (shape_str : string) : string :=
  match steps with
  | O => shape_str
  | S steps' =>
      let shape_str := if 0 <? i then shape_str ++ ", " else shape_str in
      let shape_str :=
        shape_str ++ Int32.to_string (nth (Z.to_nat i) x_shape 0) in
      print_shape_loop x_shape steps' (i + 1) shape_str
  end.

Definition print_shape (x : Tensor) : M unit :=
  let x_shape := shape x in
  let shape_str := "[" in
  let n := Int32.of_size (List.length x_shape) in
  (* i runs from 0 while i < n *)
  let shape_str := print_shape_loop x_shape (Z.to_nat n) 0 shape_str in
  let shape_str := shape_str ++ "]" in
  cout_write shape_str.

(** *** [numel] *)

(** The [for] loop over the remaining entries of the shape. *)
Fixpoint numel_loop (x_shape : list Z) (ret : Z) : Z :=
  match x_shape with
  | [] => ret
  | d :: rest => numel_loop rest (Int32.mul ret d)
  end.

Definition numel (x : Tensor) : M Z :=
  let ret0 := 1 in
  let x_shape := shape x in
  ret (numel_loop x_shape ret0).

(** *** What [print_shape] and [numel] are specified to compute *)

(** The text of a shape: the entries in order, separated by a comma and a
    space, between square brackets. *)
Definition shape_text (l : list Z) : string :=
  "[" ++ String.concat ", " (map Int32.to_string l) ++ "]".

(** The entries after the first one, each behind its separator. *)
Fixpoint separated (l : list Z) : string :=
  match l with
  | [] => EmptyString
  | d :: rest => ", " ++ Int32.to_string d ++ separated rest
  end.

(** The product of the entries of a shape, over the integers. *)
Definition shape_product (l : list Z) : Z := fold_right Z.mul 1 l.

(** ** The declarations of the evaluation entry points *)

Module Decl.

(** Element types of a [std::vector]; [VALUETYPE] is the template
    parameter. *)
Inductive elem : Type := Edouble | Efloat | Eint | EVALUETYPE.

Inductive ty : Type :=
| Tvector (e : elem)   (* std::vector<e> *)
| Tint
| Tbool
| TInputNlist
| TENERGYVTYPE.        (* the template parameter *)

(** How a parameter is passed: [const T], [const T&] or [T&]. *)
Inductive passing : Type := const_value | const_ref | mutable_ref.

Record param : Type := mkParam {
  ppass : passing;
  ptype : ty;
  pname : string
}.

Inductive access : Type := Public | Private.

Record method : Type := mkMethod {
  mname : string;
  maccess : access;
  mtemplate : bool;   (* template <typename VALUETYPE, typename ENERGYVTYPE> *)
  mparams : list param
}.

Definition out (t : ty) (n : string) : param := mkParam mutable_ref t n.
Definition cref (t : ty) (n : string) : param := mkParam const_ref t n.
Definition cval (t : ty) (n : string) : param := mkParam const_value t n.

Definition vec (e : elem) : ty := Tvector e.

(** Lines 64-75. *)
Definition compute_decl : method :=
  mkMethod "compute" Private true
    [ out TENERGYVTYPE "ener";
      out (vec EVALUETYPE) "force";
      out (vec EVALUETYPE) "virial";
      out (vec EVALUETYPE) "atom_energy";
      out (vec EVALUETYPE) "atom_virial";
      cref (vec EVALUETYPE) "coord";
      cref (vec Eint) "atype";
      cref (vec EVALUETYPE) "box";
      cref (vec EVALUETYPE) "fparam";
      cref (vec EVALUETYPE) "aparam";
      cval Tbool "atomic" ].

(** Lines 102-116. *)
Definition compute_nlist_decl : method :=
  mkMethod "compute" Private true
    [ out TENERGYVTYPE "ener";
      out (vec EVALUETYPE) "force";
      out (vec EVALUETYPE) "virial";
      out (vec EVALUETYPE) "atom_energy";
      out (vec EVALUETYPE) "atom_virial";
      cref (vec EVALUETYPE) "coord";
      cref (vec Eint) "atype";
      cref (vec EVALUETYPE) "box";
      cval Tint "nghost";
      cref TInputNlist "lmp_list";
      cref Tint "ago";
      cref (vec EVALUETYPE) "fparam";
      cref (vec EVALUETYPE) "aparam";
      cval Tbool "atomic" ].

(** Lines 140-150. *)
Definition compute_mixed_type_decl : method :=
  mkMethod "compute_mixed_type" Private true
    [ out TENERGYVTYPE "ener";
      out (vec EVALUETYPE) "force";
      out (vec EVALUETYPE) "virial";
      cref Tint "nframes";
      cref (vec EVALUETYPE) "coord";
      cref (vec Eint) "atype";
      cref (vec EVALUETYPE) "box";
      cref (vec EVALUETYPE) "fparam";
      cref (vec EVALUETYPE) "aparam";
      cval Tbool "atomic" ].

(** Lines 176-188. *)
Definition compute_mixed_type_atomic_decl : method :=
  mkMethod "compute_mixed_type" Private true
    [ out TENERGYVTYPE "ener";
      out (vec EVALUETYPE) "force";
      out (vec EVALUETYPE) "virial";
      out (vec EVALUETYPE) "atom_energy";
      out (vec EVALUETYPE) "atom_virial";
      cref Tint "nframes";
      cref (vec EVALUETYPE) "coord";
      cref (vec Eint) "atype";
      cref (vec EVALUETYPE) "box";
      cref (vec EVALUETYPE) "fparam";
      cref (vec EVALUETYPE) "aparam";
      cval Tbool "atomic" ].

(** Lines 296-306 ([v] is [Edouble]) and 307-317 ([v] is [Efloat]). *)
Definition computew_decl (v : elem) : method :=
  mkMethod "computew" Public false
    [ out (vec Edouble) "ener";
      out (vec v) "force";
      out (vec v) "virial";
      out (vec v) "atom_energy";
      out (vec v) "atom_virial";
      cref (vec v) "coord";
      cref (vec Eint) "atype";
      cref (vec v) "box";
      cref (vec v) "fparam";
      cref (vec v) "aparam";
      cval Tbool "atomic" ].

(** Lines 318-331 ([v] is [Edouble]) and 332-345 ([v] is [Efloat]). *)
Definition computew_nlist_decl (v : elem) : method :=
  mkMethod "computew" Public false
    [ out (vec Edouble) "ener";
      out (vec v) "force";
      out (vec v) "virial";
      out (vec v) "atom_energy";
      out (vec v) "atom_virial";
      cref (vec v) "coord";
      cref (vec Eint) "atype";
      cref (vec v) "box";
      cval Tint "nghost";
      cref TInputNlist "inlist";
      cref Tint "ago";
      cref (vec v) "fparam";
      cref (vec v) "aparam";
      cval Tbool "atomic" ].

(** Lines 346-357 ([v] is [Edouble]) and 358-369 ([v] is [Efloat]). *)
Definition computew_mixed_type_decl (v : elem) : method :=
  mkMethod "computew_mixed_type" Public false
    [ out (vec Edouble) "ener";
      out (vec v) "force";
      out (vec v) "virial";
      out (vec v) "atom_energy";
      out (vec v) "atom_virial";
      cref Tint "nframes";
      cref (vec v) "coord";
      cref (vec Eint) "atype";
      cref (vec v) "box";
      cref (vec v) "fparam";
      cref (vec v) "aparam";
      cval Tbool "atomic" ].

(** The evaluation methods of the class, in the order of the header. *)
Definition evaluation_methods : list method :=
  [ compute_decl;
    compute_nlist_decl;
    compute_mixed_type_decl;
    compute_mixed_type_atomic_decl;
    computew_decl Edouble;
    computew_decl Efloat;
    computew_nlist_decl Edouble;
    computew_nlist_decl Efloat;
    computew_mixed_type_decl Edouble;
    computew_mixed_type_decl Efloat ].

Definition templates : list method :=
  filter mtemplate evaluation_methods.

(** The public entry points: the [computew] and [computew_mixed_type]
    overloads. *)
Definition entry_points : list method :=
  filter (fun m => negb (mtemplate m)) evaluation_methods.

(** *** Which template a wrapper forwards to

    Line 295 of the header: the [computew] methods forward to the
    template methods. A wrapper passes its own parameters on, in their
    order, to the template that has its name without the [w]; overload
    resolution picks the template whose parameters accept them, and
    template argument deduction fixes [VALUETYPE] and [ENERGYVTYPE]. *)

Definition elem_eqb (a b : elem) : bool :=
  match a, b with
  | Edouble, Edouble | Efloat, Efloat | Eint, Eint
  | EVALUETYPE, EVALUETYPE => true
  | _, _ => false
  end.

Definition ty_eqb (a b : ty) : bool :=
  match a, b with
  | Tvector x, Tvector y => elem_eqb x y
  | Tint, Tint | Tbool, Tbool | TInputNlist, TInputNlist
  | TENERGYVTYPE, TENERGYVTYPE => true
  | _, _ => false
  end.

(** The template arguments deduced so far. *)
Record targs : Type := mkTargs {
  arg_VALUETYPE : option elem;
  arg_ENERGYVTYPE : option ty
}.

Definition deduce_elem (pat arg : elem) (s : targs) : option targs :=
  match pat with
  | EVALUETYPE =>
      match arg_VALUETYPE s with
      | None => Some (mkTargs (Some arg) (arg_ENERGYVTYPE s))
      | Some e => if elem_eqb e arg then Some s else None
      end
  | _ => if elem_eqb pat arg then Some s else None
  end.

Definition deduce_ty (pat arg : ty) (s : targs) : option targs :=
  match pat, arg with
  | TENERGYVTYPE, _ =>
      match arg_ENERGYVTYPE s with
      | None => Some (mkTargs (arg_VALUETYPE s) (Some arg))
      | Some t => if ty_eqb t arg then Some s else None
      end
  | Tvector p, Tvector a => deduce_elem p a s
  | _, _ => if ty_eqb pat arg then Some s else None
  end.

(** The argument is a parameter of the caller: it binds to a [T&] only
    when it is not const. *)
Definition binds (target arg : passing) : bool :=
  match target, arg with
  | mutable_ref, mutable_ref => true
  | mutable_ref, _ => false
  | _, _ => true
  end.

Fixpoint deduce_params (pats args : list param) (s : targs)
    : option targs :=
  match pats, args with
  | [], [] => Some s
  | p :: pats', a :: args' =>
      if binds (ppass p) (ppass a) then
        match deduce_ty (ptype p) (ptype a) s with
        | Some s' => deduce_params pats' args' s'
        | None => None
        end
      else None
  | _, _ => None
  end.

Definition subst_ty (v : elem) (en : ty) (t : ty) : ty :=
  match t with
  | TENERGYVTYPE => en
  | Tvector EVALUETYPE => Tvector v
  | _ => t
  end.

Definition instantiate (t : method) (v : elem) (en : ty) : method :=
  mkMethod (mname t) (maccess t) false
    (map (fun p => mkParam (ppass p) (subst_ty v en (ptype p)) (pname p))
         (mparams t)).

Definition forwarded_name (w : string) : string :=
  if String.eqb w "computew" then "compute"
  else if String.eqb w "computew_mixed_type" then "compute_mixed_type"
  else w.

(** The instance of template [t] that the call from wrapper [w] can
    use, when there is one. *)
Definition viable (w t : method) : option method :=
  if String.eqb (mname t) (forwarded_name (mname w)) then
    match deduce_params (mparams t) (mparams w) (mkTargs None None) with
    | Some (mkTargs (Some v) (Some en)) => Some (instantiate t v en)
    | _ => None
    end
  else None.

Definition forward_targets (w : method) : list method :=
  flat_map (fun t => match viable w t with
                     | Some i => [i]
                     | None => []
                     end) templates.

(** *** The shape of an evaluation interface *)

(** A plain numeric vector: a [std::vector] of [double], [float] or
    [int]. *)
Definition numeric_vectorb (t : ty) : bool :=
  match t with
  | Tvector Edouble | Tvector Efloat | Tvector Eint => true
  | _ => false
  end.

Definition numeric_vector (t : ty) : Prop :=
  t = Tvector Edouble \/ t = Tvector Efloat \/ t = Tvector Eint.

Definition passing_eqb (a b : passing) : bool :=
  match a, b with
  | const_value, const_value | const_ref, const_ref
  | mutable_ref, mutable_ref => true
  | _, _ => false
  end.

(** Method [m] has a parameter named [n], passed as [how], that is a
    plain numeric vector. *)
Definition vector_param (how : passing) (m : method) (n : string) : Prop :=
  exists p, In p (mparams m) /\ pname p = n /\ ppass p = how /\
            numeric_vector (ptype p).

Definition vector_paramb (how : passing) (m : method) (n : string) : bool :=
  existsb (fun p => String.eqb (pname p) n && passing_eqb (ppass p) how
                    && numeric_vectorb (ptype p)) (mparams m).

Definition input_names : list string :=
  ["coord"; "atype"; "box"; "fparam"; "aparam"].

Definition output_names : list string :=
  ["ener"; "force"; "virial"; "atom_energy"; "atom_virial"].

Definition evaluation_interface (m : method) : Prop :=
  Forall (vector_param const_ref m) input_names /\
  Forall (vector_param mutable_ref m) output_names.

Definition evaluation_interfaceb (m : method) : bool :=
  forallb (vector_paramb const_ref m) input_names &&
  forallb (vector_paramb mutable_ref m) output_names.

(** Method [m] has a parameter of type [t]. *)
Definition takes (m : method) (how : passing) (t : ty) (n : string) : Prop :=
  In (mkParam how t n) (mparams m).

Definition has_nlist (m : method) : bool :=
  existsb (fun p => ty_eqb (ptype p) TInputNlist) (mparams m).

(** The overloads of the template [compute]. *)
Definition compute_overloads : list method :=
  filter (fun m => String.eqb (mname m) "compute") templates.

End Decl.

(** ** Initialisation *)

(** The arguments a call of [init], or of the initialising constructor,
    writes out: the declarations (lines 26-28 and 36-38) give [gpu_rank]
    and [file_content] default values, so that trailing arguments can be
    left out. *)
Inductive init_args : Type :=
| init_args1 (model : string)
| init_args2 (model : string) (gpu_rank : Z)
| init_args3 (model : string) (gpu_rank : Z) (file_content : string).

(** [const int& gpu_rank = 0] *)
Definition default_gpu_rank : Z := 0.

(** [const std::string& file_content], defaulted to the empty string *)
Definition default_file_content : string := EmptyString.

Definition with_defaults {A} (f : string -> Z -> string -> A)
    (a : init_args) : A :=
  match a with
  | init_args1 model => f model default_gpu_rank default_file_content
  | init_args2 model gpu_rank => f model gpu_rank default_file_content
  | init_args3 model gpu_rank file_content => f model gpu_rank file_content
  end.

(** Modelled from the spec: the body of [init] is in DeepPotPD.cc, which
    is not part of the sources. The documentation of [init] in the header
    says that [model] is the name of the frozen model file and that, if
    [file_content] is not empty, the model is read from the string instead
    of the file. *)
Definition model_source (model file_content : string) : ModelSource :=
  match file_content with
  | EmptyString => FromFile model
  | String _ _ => FromString file_content
  end.

(** Assignment to the four engine members and to [inited]. *)
Definition set_engine (dp : DeepPotPD) (c : Config) (p : Predictor)
    (c_fl : Config) (p_fl : Predictor) : DeepPotPD :=
  mkDeepPotPD
    (num_intra_nthreads dp) (num_inter_nthreads dp)
    true
    (ntypes dp) (ntypes_spin dp) (dfparam dp) (daparam dp) (aparam_nall dp)
    (Some c) (Some p) (Some c_fl) (Some p_fl)
    (rcut dp) (nlist_data dp) (max_num_neighbors dp) (gpu_id dp)
    (do_message_passing dp) (gpu_enabled dp) (firstneigh_tensor dp).

(** Assignment to [inited]. *)
Definition set_inited (dp : DeepPotPD) (b : bool) : DeepPotPD :=
  mkDeepPotPD
    (num_intra_nthreads dp) (num_inter_nthreads dp)
    b
    (ntypes dp) (ntypes_spin dp) (dfparam dp) (daparam dp) (aparam_nall dp)
    (config dp) (predictor dp) (config_fl dp) (predictor_fl dp)
    (rcut dp) (nlist_data dp) (max_num_neighbors dp) (gpu_id dp)
    (do_message_passing dp) (gpu_enabled dp) (firstneigh_tensor dp).

(** Modelled from the spec: the body of [init] is in DeepPotPD.cc, which
    is not part of the sources. The spec has the adapter load a serialized
    model and invoke two inference graphs, a direct one and a lower,
    message-passing one; the header keeps a configuration and a predictor
    for each of them (lines 380-385). The model of [init] loads the model
    from [model_source], builds the two pairs and marks the object as
    initialised; the members that hold what the serialized model says
    about itself (the cutoff, the numbers of types, the parameter
    dimensions) are outside what the spec describes and are left as they
    are. *)
Definition init (model : string) (gpu_rank : Z) (file_content : string)
    : M unit :=
  fun w =>
    let source := model_source model file_content in
    let c := mkConfig forward source gpu_rank in
    let c_fl := mkConfig forward_lower source gpu_rank in
    Returned tt
      (mkWorld (set_engine (this w) c (mkPredictor c) c_fl (mkPredictor c_fl))
               (cout w) (engine_trace w)).

(** Modelled from the spec: the constructors are defined in DeepPotPD.cc,
    which is not part of the sources. The header documents one as the
    constructor without initialisation and the other as the constructor
    with initialisation, with the parameters of [init]. *)
Definition DeepPotPD_default : M unit :=
  fun w => Returned tt (mkWorld (set_inited (this w) false)
                                (cout w) (engine_trace w)).

Definition DeepPotPD_new (model : string) (gpu_rank : Z)
    (file_content : string) : M unit :=
  DeepPotPD_default ;;;
  init model gpu_rank file_content.

(** A call of [init] and a construction, with the arguments as written. *)
Definition init_call (a : init_args) : M unit := with_defaults init a.

Definition DeepPotPD_new_call (a : init_args) : M unit :=
  with_defaults DeepPotPD_new a.

(** ** Evaluation *)

Section Templates.

(** [template <typename VALUETYPE, typename ENERGYVTYPE>] *)
Variables VALUETYPE ENERGYVTYPE : Type.

(** The tensors handed to a predictor. *)
Record EngineInput : Type := mkEngineInput {
  t_coord : list VALUETYPE;
  t_atype : list Z;
  t_box : list VALUETYPE;
  t_fparam : list VALUETYPE;
  t_aparam : list VALUETYPE;
  t_nframes : option Z;
  t_nlist : option (Z * InputNlist * Z)  (* nghost, neighbour list, ago *)
}.

(** The tensors a predictor gives back. *)
Record EngineOutput : Type := mkEngineOutput {
  o_energy : ENERGYVTYPE;
  o_force : list VALUETYPE;
  o_virial : list VALUETYPE;
  o_atom_energy : list VALUETYPE;
  o_atom_virial : list VALUETYPE
}.

(** The five output parameters of an evaluation. *)
Record Buffers : Type := mkBuffers {
  ener : ENERGYVTYPE;
  force : list VALUETYPE;
  virial : list VALUETYPE;
  atom_energy : list VALUETYPE;
  atom_virial : list VALUETYPE
}.

(** What running a graph computes is the engine's and the trained
    model's business. *)
Variable engine_run : Predictor -> EngineInput -> EngineOutput.

(** [p->Run()] on the inputs [i]. *)
Definition Predictor_Run (p : option Predictor) (i : EngineInput)
    : M EngineOutput :=
  fun w =>
    match p with
    | None => NullDereference
    | Some p' =>
        Returned (engine_run p' i)
                 (mkWorld (this w) (cout w) (engine_trace w ++ [p'])%list)
    end.

(** Modelled from the spec: the bodies of the evaluation methods are in
    DeepPotPD.cc, which is not part of the sources. The spec has them
    unmarshal energies, forces, virials and per-atom breakdowns into
    plain numeric buffers, and the header documents [atomic] as whether
    to compute the atomic energy and virial. *)
Definition unmarshal (atomic : bool) (o : EngineOutput) (b : Buffers)
    : Buffers :=
  mkBuffers (o_energy o) (o_force o) (o_virial o)
            (if atomic then o_atom_energy o else atom_energy b)
            (if atomic then o_atom_virial o else atom_virial b).

(** Modelled from the spec: the body is in DeepPotPD.cc, which is not
    part of the sources. The evaluation without a neighbour list
    marshals its inputs, invokes the direct graph through [predictor]
    and unmarshals the outputs. *)
Definition compute (b : Buffers)
    (coord : list VALUETYPE) (atype : list Z) (box : list VALUETYPE)
    (fparam aparam : list VALUETYPE) (atomic : bool) : M Buffers :=
  p <- member predictor ;;
  o <- Predictor_Run p
         (mkEngineInput coord atype box fparam aparam None None) ;;
  ret (unmarshal atomic o b).

(** Modelled from the spec: the body is in DeepPotPD.cc, which is not
    part of the sources. The evaluation with a neighbour list marshals
    its inputs, invokes the lower, message-passing graph through
    [predictor_fl] and unmarshals the outputs. *)
Definition compute_nlist (b : Buffers)
    (coord : list VALUETYPE) (atype : list Z) (box : list VALUETYPE)
    (nghost : Z) (lmp_list : InputNlist) (ago : Z)
    (fparam aparam : list VALUETYPE) (atomic : bool) : M Buffers :=
  p <- member predictor_fl ;;
  o <- Predictor_Run p
         (mkEngineInput coord atype box fparam aparam None
                        (Some (nghost, lmp_list, ago))) ;;
  ret (unmarshal atomic o b).

(** Modelled from the spec: the body is in DeepPotPD.cc, which is not
    part of the sources. The mixed-type evaluation takes the number of
    frames and no neighbour list: it invokes the direct graph. *)
Definition compute_mixed_type (b : Buffers) (nframes : Z)
    (coord : list VALUETYPE) (atype : list Z) (box : list VALUETYPE)
    (fparam aparam : list VALUETYPE) (atomic : bool) : M Buffers :=
  p <- member predictor ;;
  o <- Predictor_Run p
         (mkEngineInput coord atype box fparam aparam (Some nframes) None) ;;
  ret (unmarshal atomic o b).

End Templates.

Arguments mkEngineInput {VALUETYPE}.
Arguments t_coord {VALUETYPE}.
Arguments t_atype {VALUETYPE}.
Arguments t_box {VALUETYPE}.
Arguments t_fparam {VALUETYPE}.
Arguments t_aparam {VALUETYPE}.
Arguments t_nframes {VALUETYPE}.
Arguments t_nlist {VALUETYPE}.
Arguments mkEngineOutput {VALUETYPE ENERGYVTYPE}.
Arguments mkBuffers {VALUETYPE ENERGYVTYPE}.
Arguments o_energy {VALUETYPE ENERGYVTYPE}.
Arguments o_force {VALUETYPE ENERGYVTYPE}.
Arguments o_virial {VALUETYPE ENERGYVTYPE}.
Arguments o_atom_energy {VALUETYPE ENERGYVTYPE}.
Arguments o_atom_virial {VALUETYPE ENERGYVTYPE}.
Arguments ener {VALUETYPE ENERGYVTYPE}.
Arguments force {VALUETYPE ENERGYVTYPE}.
Arguments virial {VALUETYPE ENERGYVTYPE}.
Arguments atom_energy {VALUETYPE ENERGYVTYPE}.
Arguments atom_virial {VALUETYPE ENERGYVTYPE}.
Arguments compute {VALUETYPE ENERGYVTYPE}.
Arguments compute_nlist {VALUETYPE ENERGYVTYPE}.
Arguments compute_mixed_type {VALUETYPE ENERGYVTYPE}.

Section Wrappers.

(** [double] or [float]: the wrappers come in both. *)
Variable VALUETYPE : Type.

(** The energy of the wrappers is a [std::vector<double>]. *)
Definition energy_vector : Type := list float.

Variable engine_run :
  Predictor -> EngineInput VALUETYPE -> EngineOutput VALUETYPE energy_vector.

(** Line 295: forward to the template methods. *)
Definition computew (b : Buffers VALUETYPE energy_vector)
    (coord : list VALUETYPE) (atype : list Z) (box : list VALUETYPE)
    (fparam aparam : list VALUETYPE) (atomic : bool) :=
  compute engine_run b coord atype box fparam aparam atomic.

Definition computew_nlist (b : Buffers VALUETYPE energy_vector)
    (coord : list VALUETYPE) (atype : list Z) (box : list VALUETYPE)
    (nghost : Z) (inlist : InputNlist) (ago : Z)
    (fparam aparam : list VALUETYPE) (atomic : bool) :=
  compute_nlist engine_run b coord atype box nghost inlist ago
                fparam aparam atomic.

Definition computew_mixed_type (b : Buffers VALUETYPE energy_vector)
    (nframes : Z)
    (coord : list VALUETYPE) (atype : list Z) (box : list VALUETYPE)
    (fparam aparam : list VALUETYPE) (atomic : bool) :=
  compute_mixed_type engine_run b nframes coord atype box
                     fparam aparam atomic.

(** An evaluation call on the public interface. *)
Inductive EvalCall : Type :=
| Call_computew
    (coord : list VALUETYPE) (atype : list Z) (box : list VALUETYPE)
    (fparam aparam : list VALUETYPE) (atomic : bool)
| Call_computew_nlist
    (coord : list VALUETYPE) (atype : list Z) (box : list VALUETYPE)
    (nghost : Z) (inlist : InputNlist) (ago : Z)
    (fparam aparam : list VALUETYPE) (atomic : bool)
| Call_computew_mixed_type
    (nframes : Z)
    (coord : list VALUETYPE) (atype : list Z) (box : list VALUETYPE)
    (fparam aparam : list VALUETYPE) (atomic : bool).

(** The [atomic] argument of a call. *)
Definition call_atomic (c : EvalCall) : bool :=
  match c with
  | Call_computew _ _ _ _ _ atomic => atomic
  | Call_computew_nlist _ _ _ _ _ _ _ _ atomic => atomic
  | Call_computew_mixed_type _ _ _ _ _ _ atomic => atomic
  end.

Definition evaluate (c : EvalCall) (b : Buffers VALUETYPE energy_vector)
    : M (Buffers VALUETYPE energy_vector) :=
  match c with
  | Call_computew coord atype box fparam aparam atomic =>
      computew b coord atype box fparam aparam atomic
  | Call_computew_nlist coord atype box nghost inlist ago
                        fparam aparam atomic =>
      computew_nlist b coord atype box nghost inlist ago
                     fparam aparam atomic
  | Call_computew_mixed_type nframes coord atype box fparam aparam atomic =>
      computew_mixed_type b nframes coord atype box fparam aparam atomic
  end.

End Wrappers.

Arguments Call_computew {VALUETYPE}.
Arguments Call_computew_nlist {VALUETYPE}.
Arguments Call_computew_mixed_type {VALUETYPE}.
Arguments call_atomic {VALUETYPE}.
Arguments evaluate {VALUETYPE}.
Arguments computew {VALUETYPE}.
Arguments computew_nlist {VALUETYPE}.
Arguments computew_mixed_type {VALUETYPE}.

(** ** Further definitions *)

(** [z] is a value of [int]. *)
Definition int_fits (z : Z) : bool :=
  (Int32.INT_MIN <=? z) && (z <=? Int32.INT_MAX).

(** The loop of [numel] where a multiplication whose result is not a
    value of [int] has no defined result ([None]), as the C++ standard
    has it, instead of wrapping around. *)
Fixpoint numel_loop_exact (x_shape : list Z) (ret : Z) : option Z :=
  match x_shape with
  | [] => Some ret
  | d :: rest =>
      if int_fits (ret * d) then numel_loop_exact rest (ret * d) else None
  end.

(** The characters [std::to_string] writes for an [int]. *)
Definition numeric_char (c : ascii) : bool :=
  existsb (Ascii.eqb c)
    ["-"; "0"; "1"; "2"; "3"; "4"; "5"; "6"; "7"; "8"; "9"]%char.

Fixpoint all_chars (P : ascii -> bool) (s : string) : bool :=
  match s with
  | EmptyString => true
  | String c rest => P c && all_chars P rest
  end.

(** What follows a number in the text starts with a character that no
    number holds. *)
Definition starts_outside (s : string) : Prop :=
  exists c rest, s = String c rest /\ numeric_char c = false.

(** The types of the parameters of a method and how they are passed, in
    order, without their names. *)
Definition method_signature (m : Decl.method)
    : list (Decl.passing * Decl.ty) :=
  map (fun p => (Decl.ppass p, Decl.ptype p)) (Decl.mparams m).

(** ** Sample values *)

Definition sample_object : DeepPotPD :=
  mkDeepPotPD 1 1 true 2 0 0 0 1 None None None None 6%float
              (mkNeighborListData [] [] []) 0 0 0 false None.

Definition sample_world : World := mkWorld sample_object EmptyString [].

Definition sample_tensor : Tensor := mkTensor [2; 3; 4].

(** An engine that answers from the graph it runs and the inputs. *)
Definition sample_engine (p : Predictor) (i : EngineInput float)
    : EngineOutput float energy_vector :=
  mkEngineOutput
    [match cfg_graph (pred_config p) with
     | forward => 1%float
     | forward_lower => 2%float
     end]
    (t_coord i) (t_box i) [3%float] [4%float].

Definition sample_buffers : Buffers float energy_vector :=
  mkBuffers [] [] [] [0%float] [0%float].

Definition sample_nlist : InputNlist := mkInputNlist 1 [0] [0] [[]].

(** The sample world after [init]. *)
Definition sample_ready_world : World :=
  match init "frozen_model" 0 EmptyString sample_world with
  | Returned _ w => w
  | _ => sample_world
  end.

(** * Properties *)

(** ** Arithmetic on [int] *)

Section Int32Facts.

Import Int32.

Lemma wrap_in_range (z : Z) : in_range (wrap z).
Proof.
  unfold in_range, wrap, INT_MIN, INT_MAX.
  pose proof (Z.mod_pos_bound (z + 2 ^ 31) (2 ^ 32) ltac:(lia)). lia.
Qed.

Lemma wrap_small (z : Z) : in_range z -> wrap z = z.
Proof.
  unfold in_range, wrap, INT_MIN, INT_MAX. intros Hz.
  rewrite Z.mod_small; lia.
Qed.

Lemma wrap_fixed_iff (z : Z) : wrap z = z <-> in_range z.
Proof.
  split.
  - intros <-. apply wrap_in_range.
  - apply wrap_small.
Qed.

(** [wrap z] differs from [z] by a multiple of 2^32. *)
Lemma wrap_decompose (z : Z) : wrap z = z - 2 ^ 32 * ((z + 2 ^ 31) / 2 ^ 32).
Proof.
  unfold wrap. rewrite Z.mod_eq by lia. lia.
Qed.

Lemma wrap_congruent (z : Z) : (wrap z - z) mod 2 ^ 32 = 0.
Proof.
  rewrite wrap_decompose.
  replace (z - 2 ^ 32 * ((z + 2 ^ 31) / 2 ^ 32) - z)
    with (- ((z + 2 ^ 31) / 2 ^ 32) * 2 ^ 32) by lia.
  apply Z.mod_mul. lia.
Qed.

Lemma wrap_mul_wrap_l (a b : Z) : wrap (wrap a * b) = wrap (a * b).
Proof.
  rewrite (wrap_decompose a). unfold wrap. f_equal.
  replace ((a - 2 ^ 32 * ((a + 2 ^ 31) / 2 ^ 32)) * b + 2 ^ 31)
    with (a * b + 2 ^ 31 + (- ((a + 2 ^ 31) / 2 ^ 32) * b) * 2 ^ 32) by lia.
  apply Z.mod_add. lia.
Qed.

Lemma to_bool_true_iff (z : Z) : to_bool z = true <-> z <> 0.
Proof.
  unfold to_bool. rewrite negb_true_iff, Z.eqb_neq. reflexivity.
Qed.

End Int32Facts.

(** ** Strings *)

Lemma string_app_assoc (a b c : string) : (a ++ b) ++ c = a ++ (b ++ c).
Proof.
  induction a as [| ch a IH]; simpl; [reflexivity | now rewrite IH].
Qed.

Lemma string_app_empty_r (a : string) : a ++ EmptyString = a.
Proof.
  induction a as [| ch a IH]; simpl; [reflexivity | now rewrite IH].
Qed.

Lemma concat_separated (d : Z) (rest : list Z) :
  String.concat ", " (map Int32.to_string (d :: rest)) =
  Int32.to_string d ++ separated rest.
Proof.
  revert d. induction rest as [| e rest IH]; intros d.
  - simpl. now rewrite string_app_empty_r.
  - change (String.concat ", " (map Int32.to_string (d :: e :: rest)))
      with (Int32.to_string d ++ ", " ++
            String.concat ", " (map Int32.to_string (e :: rest))).
    rewrite IH. reflexivity.
Qed.

(** ** [numel] *)

Lemma numel_loop_wrap (l : list Z) (r : Z) :
  numel_loop l (Int32.wrap r) = Int32.wrap (r * shape_product l).
Proof.
  revert r. induction l as [| d rest IH]; intros r;
    cbn [numel_loop shape_product fold_right].
  - now rewrite Z.mul_1_r.
  - unfold Int32.mul. rewrite IH.
    fold (shape_product rest).
    rewrite <- Z.mul_assoc. apply wrap_mul_wrap_l.
Qed.

Lemma numel_loop_product (l : list Z) :
  numel_loop l 1 = Int32.wrap (shape_product l).
Proof.
  change 1 with (Int32.wrap 1) at 1.
  rewrite numel_loop_wrap. f_equal. lia.
Qed.

(** ** [print_shape] *)

(** The loop, started at index [length pre] with as many steps as there
    are entries left, appends the text of the remaining entries. *)
Lemma print_shape_loop_later (suf pre : list Z) (acc : string) :
  pre <> [] ->
  print_shape_loop (pre ++ suf)%list (List.length suf)
                   (Z.of_nat (List.length pre)) acc =
  acc ++ separated suf.
Proof.
  revert pre acc. induction suf as [| d rest IH]; intros pre acc Hpre.
  - simpl. now rewrite string_app_empty_r.
  - cbn [print_shape_loop List.length separated].
    assert (Hpos : (0 <? Z.of_nat (List.length pre)) = true).
    { apply Z.ltb_lt. destruct pre; [congruence | simpl; lia]. }
    rewrite Hpos, Nat2Z.id, nth_middle.
    replace (pre ++ d :: rest)%list with ((pre ++ [d]) ++ rest)%list
      by (now rewrite <- app_assoc).
    replace (Z.of_nat (List.length pre) + 1)
      with (Z.of_nat (List.length (pre ++ [d])%list))
      by (rewrite length_app; simpl; lia).
    rewrite IH by (destruct pre; discriminate).
    now rewrite !string_app_assoc.
Qed.

Lemma print_shape_loop_text (l : list Z) :
  print_shape_loop l (List.length l) 0 "[" ++ "]" = shape_text l.
Proof.
  unfold shape_text. destruct l as [| d rest].
  - reflexivity.
  - rewrite concat_separated.
    cbn [print_shape_loop List.length].
    change (0 <? 0) with false. cbv iota.
    change (nth (Z.to_nat 0) (d :: rest) 0) with d.
    change (d :: rest) with ([d] ++ rest)%list.
    change (0 + 1) with (Z.of_nat (List.length [d])).
    rewrite print_shape_loop_later by discriminate.
    now rewrite !string_app_assoc.
Qed.

Lemma of_size_small (n : nat) :
  Z.of_nat n <= Int32.INT_MAX -> Z.to_nat (Int32.of_size n) = n.
Proof.
  intros Hn. unfold Int32.of_size.
  rewrite wrap_small by (unfold Int32.in_range, Int32.INT_MIN, Int32.INT_MAX in *; lia).
  apply Nat2Z.id.
Qed.

(** ** The accessors *)

(** Each accessor asserts [inited] and then returns one member. *)
Lemma accessor_run {A} (field : DeepPotPD -> A) (w : World) :
  (b <- member inited ;; assert b ;;; member field) w =
  if inited (this w) then Returned (field (this w)) w else AssertionFailed.
Proof.
  unfold bind, member, assert. destruct (inited (this w)); reflexivity.
Qed.

(** C6: on an initialised object [cutoff()] returns the stored cutoff
    radius [rcut] and leaves the object as it was; on an object that is
    not initialised the assertion on [inited] fails, and no value is
    returned. *)
Theorem cutoff_returns_rcut (w : World) :
  cutoff w =
  if inited (this w) then Returned (rcut (this w)) w else AssertionFailed.
Proof.
  apply accessor_run.
Qed.

(** C7: on an initialised object [dim_fparam()] returns [dfparam] and
    [dim_aparam()] returns [daparam]; both assert [inited] first, so
    that they fail on an object that is not initialised, and both leave
    every member of the object as it was. *)
Theorem dim_fparam_dim_aparam_return_members (w : World) :
  dim_fparam w =
    (if inited (this w) then Returned (dfparam (this w)) w
     else AssertionFailed) /\
  dim_aparam w =
    (if inited (this w) then Returned (daparam (this w)) w
     else AssertionFailed).
Proof.
  split; apply accessor_run.
Qed.

(** C9: on an initialised object [is_aparam_nall()] returns the [int]
    member [aparam_nall] converted to [bool], which is [true] exactly
    when the member is not zero. *)
Theorem is_aparam_nall_iff_nonzero (w : World) :
  inited (this w) = true ->
  exists b : bool,
    is_aparam_nall w = Returned b w /\
    (b = true <-> aparam_nall (this w) <> 0).
Proof.
  intros Hinit. exists (Int32.to_bool (aparam_nall (this w))). split.
  - unfold is_aparam_nall, bind, member, assert, ret.
    now rewrite Hinit.
  - apply to_bool_true_iff.
Qed.

Lemma is_aparam_nall_iff_nonzero_witness :
  inited (this sample_world) = true /\
  exists b : bool,
    is_aparam_nall sample_world = Returned b sample_world /\
    (b = true <-> aparam_nall (this sample_world) <> 0).
Proof.
  split; [reflexivity |].
  apply (is_aparam_nall_iff_nonzero sample_world). reflexivity.
Defined.

(** ** [numel] and [print_shape] *)

(** C8: [numel(x)] multiplies the entries of the shape into an [int]
    that starts at 1, so that an empty shape gives 1; the result is the
    product of the entries reduced modulo 2^32 into the range of [int],
    and it is the product itself exactly when the product is in that
    range. *)
Theorem numel_is_wrapped_product (x : Tensor) (w : World) :
  exists r : Z,
    numel x w = Returned r w /\
    r = Int32.wrap (shape_product (shape x)) /\
    (r - shape_product (shape x)) mod 2 ^ 32 = 0 /\
    (r = shape_product (shape x) <->
     Int32.in_range (shape_product (shape x))) /\
    numel (mkTensor []) w = Returned 1 w.
Proof.
  exists (numel_loop (shape x) 1).
  unfold numel, ret. rewrite numel_loop_product.
  split; [reflexivity |]. split; [reflexivity |].
  split; [apply wrap_congruent |].
  split; [apply wrap_fixed_iff | reflexivity].
Qed.

(** A shape whose product does not fit: 65536 * 65536 is 2^32. *)
Example numel_overflow :
  numel (mkTensor [65536; 65536]) sample_world = Returned 0 sample_world.
Proof. reflexivity. Qed.

(** The intermediate product may leave the range and the result still be
    the product. *)
Example numel_overflow_then_zero :
  numel (mkTensor [65536; 65536; 0]) sample_world = Returned 0 sample_world.
Proof. reflexivity. Qed.

Example shape_text_sample : shape_text [2; -1; 40] = "[2, -1, 40]".
Proof. reflexivity. Qed.

(** C10: [print_shape(x)] appends to the standard output the opening
    bracket, the entries of the shape in order separated by a comma and
    a space, and the closing bracket (the two brackets alone for an
    empty shape), and changes nothing of the object. The size of the
    shape is counted in an [int], which it has to fit. *)
Theorem print_shape_writes_shape_text (x : Tensor) (w : World) :
  Z.of_nat (List.length (shape x)) <= Int32.INT_MAX ->
  print_shape x w =
    Returned tt (mkWorld (this w) (cout w ++ shape_text (shape x))
                         (engine_trace w)) /\
  shape_text [] = "[]".
Proof.
  intros Hsize. split; [| reflexivity].
  unfold print_shape, cout_write.
  rewrite of_size_small by exact Hsize.
  now rewrite print_shape_loop_text.
Qed.

Lemma print_shape_writes_shape_text_witness :
  Z.of_nat (List.length (shape sample_tensor)) <= Int32.INT_MAX /\
  print_shape sample_tensor sample_world =
    Returned tt (mkWorld sample_object "[2, 3, 4]" []).
Proof.
  assert (H : Z.of_nat (List.length (shape sample_tensor)) <= Int32.INT_MAX)
    by (vm_compute; discriminate).
  split; [exact H |].
  exact (proj1 (print_shape_writes_shape_text sample_tensor sample_world H)).
Defined.

(** ** The evaluation interface *)

Section DeclFacts.

Import Decl.

Lemma numeric_vectorb_sound (t : ty) :
  numeric_vectorb t = true -> numeric_vector t.
Proof.
  unfold numeric_vector.
  destruct t as [[] | | | |]; simpl; intros H;
    try discriminate; auto.
Qed.

Lemma passing_eqb_sound (a b : passing) : passing_eqb a b = true -> a = b.
Proof.
  destruct a, b; simpl; intros H; try discriminate; reflexivity.
Qed.

Lemma vector_paramb_sound (how : passing) (m : method) (n : string) :
  vector_paramb how m n = true -> vector_param how m n.
Proof.
  unfold vector_paramb, vector_param. intros H.
  apply existsb_exists in H. destruct H as (p & Hin & Hp).
  apply andb_prop in Hp. destruct Hp as [Hp Hvec].
  apply andb_prop in Hp. destruct Hp as [Hname Hpass].
  exists p. repeat split.
  - exact Hin.
  - now apply String.eqb_eq.
  - now apply passing_eqb_sound.
  - now apply numeric_vectorb_sound.
Qed.

Lemma evaluation_interfaceb_sound (m : method) :
  evaluation_interfaceb m = true -> evaluation_interface m.
Proof.
  unfold evaluation_interfaceb, evaluation_interface. intros H.
  apply andb_prop in H. destruct H as [Hin Hout].
  rewrite forallb_forall in Hin, Hout.
  split; apply Forall_forall; intros n Hn;
    apply vector_paramb_sound; auto.
Qed.

(** The public entry points are the six wrappers. *)
Example entry_points_are_the_wrappers :
  entry_points =
  [ computew_decl Edouble; computew_decl Efloat;
    computew_nlist_decl Edouble; computew_nlist_decl Efloat;
    computew_mixed_type_decl Edouble; computew_mixed_type_decl Efloat ].
Proof. reflexivity. Qed.

(** The [float] wrapper with a neighbour list forwards to the
    neighbour-list overload of [compute], with [VALUETYPE] deduced as
    [float] and [ENERGYVTYPE] as [std::vector<double>]. *)
Example computew_nlist_float_forwards :
  forward_targets (computew_nlist_decl Efloat) =
  [ instantiate compute_nlist_decl Efloat (Tvector Edouble) ].
Proof. reflexivity. Qed.

(** Of the two [compute_mixed_type] overloads, the wrappers reach the
    one with the per-atom outputs. *)
Example computew_mixed_type_forwards :
  forward_targets (computew_mixed_type_decl Edouble) =
  [ instantiate compute_mixed_type_atomic_decl Edouble (Tvector Edouble) ].
Proof. reflexivity. Qed.

(** The [compute_mixed_type] overload without per-atom outputs (lines
    140-150) is not what any entry point forwards to. *)
Example plain_compute_mixed_type_not_forwarded_to :
  forallb (fun w => match viable w compute_mixed_type_decl with
                    | Some _ => false
                    | None => true
                    end) entry_points = true.
Proof. reflexivity. Qed.

(** C1: every evaluation entry point ([computew], [computew_mixed_type])
    takes [coord], [atype], [box], [fparam] and [aparam] as constant
    references to plain numeric vectors and returns [ener], [force],
    [virial], [atom_energy] and [atom_virial] through references to
    plain numeric vectors, and so does the one instance of a private
    template that it forwards to. *)
Theorem entry_points_exchange_numeric_vectors :
  Forall (fun w : method =>
            evaluation_interface w /\
            exists t : method,
              forward_targets w = [t] /\ evaluation_interface t)
         entry_points.
Proof.
  rewrite entry_points_are_the_wrappers.
  repeat (apply Forall_cons;
          [ split;
            [ apply evaluation_interfaceb_sound; reflexivity
            | eexists; split;
              [ reflexivity
              | apply evaluation_interfaceb_sound; reflexivity ] ]
          | ]).
  apply Forall_nil.
Qed.

End DeclFacts.

(** ** Initialisation *)

Lemma init_returns (model : string) (gpu_rank : Z) (file_content : string)
    (w : World) :
  init model gpu_rank file_content w =
  let source := model_source model file_content in
  Returned tt
    (mkWorld (set_engine (this w)
                (mkConfig forward source gpu_rank)
                (mkPredictor (mkConfig forward source gpu_rank))
                (mkConfig forward_lower source gpu_rank)
                (mkPredictor (mkConfig forward_lower source gpu_rank)))
             (cout w) (engine_trace w)).
Proof. reflexivity. Qed.

Lemma model_source_cases (model file_content : string) :
  model_source model file_content =
  if String.eqb file_content EmptyString then FromFile model
  else FromString file_content.
Proof.
  destruct file_content; reflexivity.
Qed.

(** C2: after [init] the object holds two configuration and predictor
    pairs in separate members: [config] and [predictor], bound to the
    direct graph, and [config_fl] and [predictor_fl], bound to the
    lower, message-passing graph. *)
Theorem init_builds_two_engine_pairs (model : string) (gpu_rank : Z)
    (file_content : string) (w : World) :
  exists (w' : World) (c c_fl : Config) (p p_fl : Predictor),
    init model gpu_rank file_content w = Returned tt w' /\
    inited (this w') = true /\
    config (this w') = Some c /\ predictor (this w') = Some p /\
    config_fl (this w') = Some c_fl /\ predictor_fl (this w') = Some p_fl /\
    pred_config p = c /\ cfg_graph c = forward /\
    pred_config p_fl = c_fl /\ cfg_graph c_fl = forward_lower /\
    c <> c_fl /\ p <> p_fl.
Proof.
  rewrite init_returns. cbv zeta.
  do 5 eexists.
  repeat (split; [reflexivity |]).
  split; intros H; discriminate H.
Qed.

(** C4: [init] and the initialising constructor load the model named by
    [model], or read it from [file_content] when that string is not
    empty; a call that leaves out [file_content] passes the empty string,
    and one that also leaves out [gpu_rank] passes 0. *)
Theorem init_loads_model_with_defaults (model : string) (gpu_rank : Z)
    (file_content : string) (w : World) :
  let source :=
    if String.eqb file_content EmptyString then FromFile model
    else FromString file_content in
  (exists (w' : World) (c c_fl : Config),
     init model gpu_rank file_content w = Returned tt w' /\
     config (this w') = Some c /\ config_fl (this w') = Some c_fl /\
     cfg_source c = source /\ cfg_source c_fl = source) /\
  (exists (w' : World) (c c_fl : Config),
     DeepPotPD_new model gpu_rank file_content w = Returned tt w' /\
     config (this w') = Some c /\ config_fl (this w') = Some c_fl /\
     cfg_source c = source /\ cfg_source c_fl = source) /\
  init_call (init_args1 model) = init model 0 EmptyString /\
  init_call (init_args2 model gpu_rank) = init model gpu_rank EmptyString /\
  init_call (init_args3 model gpu_rank file_content) =
    init model gpu_rank file_content /\
  DeepPotPD_new_call (init_args1 model) = DeepPotPD_new model 0 EmptyString /\
  DeepPotPD_new_call (init_args2 model gpu_rank) =
    DeepPotPD_new model gpu_rank EmptyString /\
  DeepPotPD_new_call (init_args3 model gpu_rank file_content) =
    DeepPotPD_new model gpu_rank file_content.
Proof.
  cbv zeta. rewrite <- model_source_cases.
  split; [| split; [| repeat split]].
  - rewrite init_returns. cbv zeta. do 3 eexists.
    repeat (split; [reflexivity |]). reflexivity.
  - unfold DeepPotPD_new, DeepPotPD_default, bind.
    rewrite init_returns. cbv zeta. do 3 eexists.
    repeat (split; [reflexivity |]). reflexivity.
Qed.

(** Reading from the file, and reading from the string. *)
Example init_from_file :
  exists w' : World,
    init_call (init_args1 "frozen_model") sample_world = Returned tt w' /\
    config (this w') = Some (mkConfig forward (FromFile "frozen_model") 0).
Proof. eexists. split; reflexivity. Qed.

Example init_from_string :
  exists w' : World,
    init "frozen_model" 1 "content" sample_world = Returned tt w' /\
    config_fl (this w') =
      Some (mkConfig forward_lower (FromString "content") 1).
Proof. eexists. split; reflexivity. Qed.

(** ** Evaluation *)

Section TemplateFacts.

Variables VALUETYPE ENERGYVTYPE : Type.
Variable engine_run :
  Predictor -> EngineInput VALUETYPE -> EngineOutput VALUETYPE ENERGYVTYPE.

Implicit Types (b : Buffers VALUETYPE ENERGYVTYPE) (w : World).

Lemma compute_runs_predictor b coord atype box fparam aparam atomic w p :
  predictor (this w) = Some p ->
  compute engine_run b coord atype box fparam aparam atomic w =
  Returned
    (unmarshal _ _ atomic
       (engine_run p (mkEngineInput coord atype box fparam aparam None None))
       b)
    (mkWorld (this w) (cout w) (engine_trace w ++ [p])%list).
Proof.
  intros Hp. unfold compute, bind, member, Predictor_Run, ret.
  now rewrite Hp.
Qed.

Lemma compute_nlist_runs_predictor_fl b coord atype box nghost lmp_list ago
    fparam aparam atomic w p :
  predictor_fl (this w) = Some p ->
  compute_nlist engine_run b coord atype box nghost lmp_list ago
                fparam aparam atomic w =
  Returned
    (unmarshal _ _ atomic
       (engine_run p (mkEngineInput coord atype box fparam aparam None
                                    (Some (nghost, lmp_list, ago))))
       b)
    (mkWorld (this w) (cout w) (engine_trace w ++ [p])%list).
Proof.
  intros Hp. unfold compute_nlist, bind, member, Predictor_Run, ret.
  now rewrite Hp.
Qed.

Lemma compute_mixed_type_runs_predictor b nframes coord atype box
    fparam aparam atomic w p :
  predictor (this w) = Some p ->
  compute_mixed_type engine_run b nframes coord atype box
                     fparam aparam atomic w =
  Returned
    (unmarshal _ _ atomic
       (engine_run p (mkEngineInput coord atype box fparam aparam
                                    (Some nframes) None))
       b)
    (mkWorld (this w) (cout w) (engine_trace w ++ [p])%list).
Proof.
  intros Hp. unfold compute_mixed_type, bind, member, Predictor_Run, ret.
  now rewrite Hp.
Qed.

(** C3: the [compute] overload that takes [nghost], an [InputNlist] and
    [ago] next to the coordinates, types and box is the evaluation with
    a neighbour list; on an initialised object it runs the predictor of
    the lower, message-passing graph, and the overload without a
    neighbour list runs the predictor of the direct graph. *)
Theorem nlist_overload_drives_forward_lower
    (model : string) (gpu_rank : Z) (file_content : string) (w0 w : World)
    b coord atype box nghost lmp_list ago fparam aparam atomic :
  init model gpu_rank file_content w0 = Returned tt w ->
  (Decl.compute_overloads = [Decl.compute_decl; Decl.compute_nlist_decl] /\
   Decl.has_nlist Decl.compute_decl = false /\
   Decl.has_nlist Decl.compute_nlist_decl = true /\
   Decl.takes Decl.compute_nlist_decl
              Decl.const_ref (Decl.Tvector Decl.EVALUETYPE) "coord" /\
   Decl.takes Decl.compute_nlist_decl
              Decl.const_ref (Decl.Tvector Decl.Eint) "atype" /\
   Decl.takes Decl.compute_nlist_decl
              Decl.const_ref (Decl.Tvector Decl.EVALUETYPE) "box" /\
   Decl.takes Decl.compute_nlist_decl Decl.const_value Decl.Tint "nghost" /\
   Decl.takes Decl.compute_nlist_decl
              Decl.const_ref Decl.TInputNlist "lmp_list" /\
   Decl.takes Decl.compute_nlist_decl Decl.const_ref Decl.Tint "ago") /\
  (exists (p : Predictor) b' (w' : World),
     compute_nlist engine_run b coord atype box nghost lmp_list ago
                   fparam aparam atomic w = Returned b' w' /\
     engine_trace w' = (engine_trace w ++ [p])%list /\
     cfg_graph (pred_config p) = forward_lower) /\
  (exists (p : Predictor) b' (w' : World),
     compute engine_run b coord atype box fparam aparam atomic w =
       Returned b' w' /\
     engine_trace w' = (engine_trace w ++ [p])%list /\
     cfg_graph (pred_config p) = forward).
Proof.
  intros Hinit. rewrite init_returns in Hinit. cbv zeta in Hinit.
  injection Hinit as <-.
  split; [| split].
  - split; [reflexivity |]. split; [reflexivity |]. split; [reflexivity |].
    unfold Decl.takes, Decl.compute_nlist_decl; simpl.
    repeat split; auto 20.
  - do 3 eexists. split; [| split].
    + apply compute_nlist_runs_predictor_fl. reflexivity.
    + reflexivity.
    + reflexivity.
  - do 3 eexists. split; [| split].
    + apply compute_runs_predictor. reflexivity.
    + reflexivity.
    + reflexivity.
Qed.

End TemplateFacts.

Lemma nlist_overload_drives_forward_lower_witness :
  (exists (p : Predictor) b' (w' : World),
     compute_nlist sample_engine sample_buffers [1%float] [0] [9%float]
                   0 sample_nlist 0 [] [] true sample_ready_world =
       Returned b' w' /\
     engine_trace w' = (engine_trace sample_ready_world ++ [p])%list /\
     cfg_graph (pred_config p) = forward_lower) /\
  (exists (p : Predictor) b' (w' : World),
     compute sample_engine sample_buffers [1%float] [0] [9%float]
             [] [] true sample_ready_world = Returned b' w' /\
     engine_trace w' = (engine_trace sample_ready_world ++ [p])%list /\
     cfg_graph (pred_config p) = forward).
Proof.
  exact (proj2 (nlist_overload_drives_forward_lower
                  float energy_vector sample_engine
                  "frozen_model" 0 EmptyString sample_world sample_ready_world
                  sample_buffers [1%float] [0] [9%float] 0 sample_nlist 0
                  [] [] true eq_refl)).
Defined.

(** The two graphs really answer: the sample engine gives the energy 2
    on the lower graph and 1 on the direct graph. *)
Example compute_nlist_sample_energy :
  exists w' : World,
    compute_nlist sample_engine sample_buffers [1%float] [0] [9%float]
                  0 sample_nlist 0 [] [] false sample_ready_world =
    Returned (mkBuffers [2%float] [1%float] [9%float] [0%float] [0%float]) w'.
Proof. eexists. reflexivity. Qed.

Example compute_sample_energy :
  exists w' : World,
    compute sample_engine sample_buffers [1%float] [0] [9%float]
            [] [] true sample_ready_world =
    Returned (mkBuffers [1%float] [1%float] [9%float] [3%float] [4%float]) w'.
Proof. eexists. reflexivity. Qed.

Section WrapperFacts.

Variable VALUETYPE : Type.
Variable engine_run :
  Predictor -> EngineInput VALUETYPE -> EngineOutput VALUETYPE energy_vector.

(** C5: an evaluation call always produces the energy, the force and
    the virial, and it fills [atom_energy] and [atom_virial] with the
    per-atom outputs of the run exactly when [atomic] is true; when
    [atomic] is false the two buffers are left as they were. *)
Theorem atomic_flag_selects_per_atom_outputs
    (c : EvalCall VALUETYPE) (b : Buffers VALUETYPE energy_vector)
    (w : World) (p p_fl : Predictor) :
  predictor (this w) = Some p ->
  predictor_fl (this w) = Some p_fl ->
  exists (o : EngineOutput VALUETYPE energy_vector)
         (b' : Buffers VALUETYPE energy_vector) (w' : World),
    (exists q i, o = engine_run q i) /\
    evaluate engine_run c b w = Returned b' w' /\
    ener b' = o_energy o /\
    force b' = o_force o /\
    virial b' = o_virial o /\
    atom_energy b' =
      (if call_atomic c then o_atom_energy o else atom_energy b) /\
    atom_virial b' =
      (if call_atomic c then o_atom_virial o else atom_virial b).
Proof.
  intros Hp Hfl.
  destruct c; cbn [evaluate call_atomic];
    unfold computew, computew_nlist, computew_mixed_type;
    [ erewrite compute_runs_predictor by exact Hp
    | erewrite compute_nlist_runs_predictor_fl by exact Hfl
    | erewrite compute_mixed_type_runs_predictor by exact Hp ];
    do 3 eexists;
    (split; [do 2 eexists; reflexivity |]);
    (split; [reflexivity |]);
    repeat split.
Qed.

End WrapperFacts.

Lemma atomic_flag_selects_per_atom_outputs_witness :
  exists (o : EngineOutput float energy_vector)
         (b' : Buffers float energy_vector) (w' : World),
    (exists q i, o = sample_engine q i) /\
    evaluate sample_engine
      (Call_computew_nlist [1%float] [0] [9%float] 0 sample_nlist 0 [] [] false)
      sample_buffers sample_ready_world = Returned b' w' /\
    ener b' = o_energy o /\
    force b' = o_force o /\
    virial b' = o_virial o /\
    atom_energy b' = atom_energy sample_buffers /\
    atom_virial b' = atom_virial sample_buffers.
Proof.
  exact (atomic_flag_selects_per_atom_outputs
           float sample_engine
           (Call_computew_nlist [1%float] [0] [9%float] 0 sample_nlist 0
                                [] [] false)
           sample_buffers sample_ready_world _ _ eq_refl eq_refl).
Defined.


(** * Further properties of the code in the header *)

(** ** The accessors [numb_types] and [numb_types_spin] *)

(** X1: on an initialised object [numb_types()] returns [ntypes] and
    [numb_types_spin()] returns [ntypes_spin], leaving the object as it
    was; on an object that is not initialised both fail on the
    assertion. *)
Theorem numb_types_return_members (w : World) :
  numb_types w =
    (if inited (this w) then Returned (ntypes (this w)) w
     else AssertionFailed) /\
  numb_types_spin w =
    (if inited (this w) then Returned (ntypes_spin (this w)) w
     else AssertionFailed).
Proof.
  split; apply accessor_run.
Qed.

(** ** More on [numel] *)

Lemma wrap_mul_wrap_r (a b : Z) :
  Int32.wrap (a * Int32.wrap b) = Int32.wrap (a * b).
Proof.
  rewrite (Z.mul_comm a (Int32.wrap b)), wrap_mul_wrap_l.
  now rewrite Z.mul_comm.
Qed.

Lemma numel_run (x : Tensor) (w : World) :
  numel x w = Returned (Int32.wrap (shape_product (shape x))) w.
Proof.
  unfold numel, ret. now rewrite numel_loop_product.
Qed.

Lemma shape_product_app (l1 l2 : list Z) :
  shape_product (l1 ++ l2)%list = shape_product l1 * shape_product l2.
Proof.
  unfold shape_product. induction l1 as [| d rest IH]; simpl.
  - now destruct (fold_right Z.mul 1 l2).
  - rewrite IH. ring.
Qed.

Lemma shape_product_perm (l1 l2 : list Z) :
  Permutation l1 l2 -> shape_product l1 = shape_product l2.
Proof.
  unfold shape_product.
  induction 1 as [| d l l' _ IH | d e l | l l' l'' _ IH1 _ IH2]; simpl.
  - reflexivity.
  - now rewrite IH.
  - ring.
  - now rewrite IH1.
Qed.

Lemma shape_product_zero (l : list Z) : In 0 l -> shape_product l = 0.
Proof.
  unfold shape_product. induction l as [| d rest IH]; simpl.
  - intros [].
  - intros [-> | Hin]; [reflexivity |].
    rewrite IH by exact Hin. apply Z.mul_0_r.
Qed.

Lemma shape_product_squeeze (l : list Z) :
  shape_product (filter (fun d => negb (d =? 1)) l) = shape_product l.
Proof.
  unfold shape_product. induction l as [| d rest IH]; simpl.
  - reflexivity.
  - destruct (Z.eqb_spec d 1) as [-> | Hd]; simpl; rewrite IH.
    + now destruct (fold_right Z.mul 1 rest).
    + reflexivity.
Qed.

Lemma shape_product_positive (l : list Z) :
  Forall (fun d => 1 <= d) l -> 1 <= shape_product l.
Proof.
  unfold shape_product. induction 1 as [| d rest Hd _ IH]; simpl; nia.
Qed.

Lemma int_fits_in_range (z : Z) : int_fits z = true <-> Int32.in_range z.
Proof.
  unfold int_fits, Int32.in_range.
  rewrite andb_true_iff, !Z.leb_le. reflexivity.
Qed.

(** X2: [numel] returns on every object, initialised or not, leaves the
    object and the output as they were, and its result is a value of
    [int], whatever the shape. *)
Theorem numel_returns_an_int (x : Tensor) (w : World) :
  exists r : Z,
    numel x w = Returned r w /\ Int32.INT_MIN <= r <= Int32.INT_MAX.
Proof.
  eexists. split; [apply numel_run | apply wrap_in_range].
Qed.

(** X3: a shape with an entry 0 has [numel] 0, wherever the entry is
    and whatever the products before it did. *)
Theorem numel_zero_dimension (x : Tensor) (w : World) :
  In 0 (shape x) -> numel x w = Returned 0 w.
Proof.
  intros Hin. rewrite numel_run, shape_product_zero by exact Hin.
  reflexivity.
Qed.

Lemma numel_zero_dimension_witness :
  In 0 (shape (mkTensor [65536; 65536; 0])) /\
  numel (mkTensor [65536; 65536; 0]) sample_world = Returned 0 sample_world.
Proof.
  assert (H : In 0 (shape (mkTensor [65536; 65536; 0])))
    by (simpl; tauto).
  split; [exact H |].
  exact (numel_zero_dimension (mkTensor [65536; 65536; 0]) sample_world H).
Defined.

(** X4: [numel] does not depend on the order of the dimensions: two
    shapes that are permutations of each other have the same [numel],
    also when the products wrap around. *)
Theorem numel_permutation (x y : Tensor) (w : World) :
  Permutation (shape x) (shape y) -> numel x w = numel y w.
Proof.
  intros Hperm. rewrite !numel_run.
  now rewrite (shape_product_perm _ _ Hperm).
Qed.

Lemma numel_permutation_witness :
  Permutation (shape (mkTensor [2; 3])) (shape (mkTensor [3; 2])) /\
  numel (mkTensor [2; 3]) sample_world = numel (mkTensor [3; 2]) sample_world.
Proof.
  assert (H : Permutation (shape (mkTensor [2; 3])) (shape (mkTensor [3; 2])))
    by (simpl; apply perm_swap).
  split; [exact H |].
  exact (numel_permutation (mkTensor [2; 3]) (mkTensor [3; 2]) sample_world H).
Defined.

(** X5: the [numel] of a shape made of two shapes one after the other is
    the [int] product of their [numel]s. *)
Theorem numel_concatenation (l1 l2 : list Z) (w : World) :
  exists r1 r2 : Z,
    numel (mkTensor l1) w = Returned r1 w /\
    numel (mkTensor l2) w = Returned r2 w /\
    numel (mkTensor (l1 ++ l2)) w = Returned (Int32.mul r1 r2) w.
Proof.
  do 2 eexists. rewrite !numel_run. cbn [shape].
  split; [reflexivity |]. split; [reflexivity |].
  unfold Int32.mul.
  now rewrite wrap_mul_wrap_l, wrap_mul_wrap_r, shape_product_app.
Qed.

(** X6: dimensions of size 1 do not count: dropping them from the shape
    leaves [numel] as it is. *)
Theorem numel_squeeze (x : Tensor) (w : World) :
  numel (mkTensor (filter (fun d => negb (d =? 1)) (shape x))) w =
  numel x w.
Proof.
  rewrite !numel_run. cbn [shape]. now rewrite shape_product_squeeze.
Qed.

Lemma numel_loop_exact_sound (l : list Z) (r0 r : Z) :
  Int32.in_range r0 ->
  numel_loop_exact l r0 = Some r ->
  numel_loop l r0 = r /\ r = r0 * shape_product l.
Proof.
  revert r0. induction l as [| d rest IH]; intros r0 Hr0;
    cbn [numel_loop_exact numel_loop shape_product fold_right].
  - intros [= <-]. split; [reflexivity | lia].
  - destruct (int_fits (r0 * d)) eqn:Hfit; [| discriminate].
    apply int_fits_in_range in Hfit. intros Hrun.
    unfold Int32.mul. rewrite wrap_small by exact Hfit.
    destruct (IH _ Hfit Hrun) as [Hloop Hprod].
    split; [exact Hloop |].
    rewrite Hprod. unfold shape_product. ring.
Qed.

Lemma numel_loop_exact_positive (l : list Z) (r0 : Z) :
  1 <= r0 ->
  Forall (fun d => 1 <= d) l ->
  r0 * shape_product l <= Int32.INT_MAX ->
  numel_loop_exact l r0 = Some (r0 * shape_product l).
Proof.
  intros Hr0 Hall. revert r0 Hr0.
  induction Hall as [| d rest Hd Hrest IH]; intros r0 Hr0 Hbound;
    cbn [numel_loop_exact shape_product fold_right] in *.
  - f_equal. lia.
  - fold (shape_product rest) in *.
    pose proof (shape_product_positive rest Hrest) as Hpos.
    assert (Hfit : int_fits (r0 * d) = true).
    { apply int_fits_in_range.
      unfold Int32.in_range, Int32.INT_MIN, Int32.INT_MAX in *. nia. }
    rewrite Hfit, IH by nia.
    f_equal. ring.
Qed.

(** X7: when no multiplication of the loop leaves the range of [int],
    [numel] returns the product of the entries of the shape. *)
Theorem numel_exact_when_no_overflow (x : Tensor) (w : World) (r : Z) :
  numel_loop_exact (shape x) 1 = Some r ->
  numel x w = Returned r w /\ r = shape_product (shape x).
Proof.
  intros Hrun.
  destruct (numel_loop_exact_sound (shape x) 1 r) as [Hloop Hprod].
  - unfold Int32.in_range, Int32.INT_MIN, Int32.INT_MAX. lia.
  - exact Hrun.
  - split; [unfold numel, ret; now rewrite Hloop | lia].
Qed.

Lemma numel_exact_when_no_overflow_witness :
  numel_loop_exact (shape sample_tensor) 1 = Some 24 /\
  numel sample_tensor sample_world = Returned 24 sample_world /\
  24 = shape_product (shape sample_tensor).
Proof.
  assert (H : numel_loop_exact (shape sample_tensor) 1 = Some 24)
    by reflexivity.
  split; [exact H |].
  exact (numel_exact_when_no_overflow sample_tensor sample_world 24 H).
Defined.

(** X8: for a shape whose entries are all at least 1 and whose product
    is at most [INT_MAX], no multiplication of the loop leaves the range
    of [int], and [numel] returns the product. *)
Theorem numel_positive_shape_no_overflow (x : Tensor) (w : World) :
  Forall (fun d => 1 <= d) (shape x) ->
  shape_product (shape x) <= Int32.INT_MAX ->
  numel_loop_exact (shape x) 1 = Some (shape_product (shape x)) /\
  numel x w = Returned (shape_product (shape x)) w.
Proof.
  intros Hall Hbound.
  assert (Hrun : numel_loop_exact (shape x) 1 =
                 Some (shape_product (shape x))).
  { rewrite numel_loop_exact_positive; [f_equal; lia | lia | exact Hall | lia]. }
  split; [exact Hrun |].
  rewrite numel_run, wrap_small; [reflexivity |].
  pose proof (shape_product_positive _ Hall).
  unfold Int32.in_range, Int32.INT_MIN, Int32.INT_MAX in *. lia.
Qed.

Lemma numel_positive_shape_no_overflow_witness :
  numel_loop_exact (shape sample_tensor) 1 =
    Some (shape_product (shape sample_tensor)) /\
  numel sample_tensor sample_world =
    Returned (shape_product (shape sample_tensor)) sample_world.
Proof.
  apply (numel_positive_shape_no_overflow sample_tensor sample_world).
  - repeat constructor; simpl; lia.
  - vm_compute. discriminate.
Defined.

(** With a zero behind an overflow the wrapped result is the product,
    and yet a multiplication has left the range. *)
Example numel_exact_undefined_before_zero :
  numel_loop_exact [65536; 65536; 0] 1 = None.
Proof. reflexivity. Qed.

(** ** More on [print_shape] *)

Lemma print_shape_run (x : Tensor) (w : World) :
  Z.of_nat (List.length (shape x)) <= Int32.INT_MAX ->
  print_shape x w =
  Returned tt (mkWorld (this w) (cout w ++ shape_text (shape x))
                       (engine_trace w)).
Proof.
  intros Hsize. unfold print_shape, cout_write.
  rewrite of_size_small by exact Hsize.
  now rewrite print_shape_loop_text.
Qed.

(** X9: two calls of [print_shape] in a row write the two texts one
    after the other, behind what the output held, and leave the object
    as it was. *)
Theorem print_shape_twice (x y : Tensor) (w : World) :
  Z.of_nat (List.length (shape x)) <= Int32.INT_MAX ->
  Z.of_nat (List.length (shape y)) <= Int32.INT_MAX ->
  (print_shape x ;;; print_shape y) w =
  Returned tt
    (mkWorld (this w)
             (cout w ++ shape_text (shape x) ++ shape_text (shape y))
             (engine_trace w)).
Proof.
  intros Hx Hy. unfold bind.
  rewrite print_shape_run by exact Hx.
  rewrite print_shape_run by exact Hy.
  cbn [this cout engine_trace].
  now rewrite string_app_assoc.
Qed.

Lemma print_shape_twice_witness :
  (print_shape sample_tensor ;;; print_shape (mkTensor [])) sample_world =
  Returned tt (mkWorld sample_object "[2, 3, 4][]" []).
Proof.
  apply (print_shape_twice sample_tensor (mkTensor []) sample_world);
    vm_compute; discriminate.
Defined.

(** *** The text of a shape determines the shape *)

Lemma string_app_inv_head (a b c : string) : a ++ b = a ++ c -> b = c.
Proof.
  induction a as [| ch a IH]; simpl; intros H.
  - exact H.
  - injection H as H. now apply IH.
Qed.

Lemma uint_text_numeric (d : Decimal.uint) :
  all_chars numeric_char (NilEmpty.string_of_uint d) = true.
Proof.
  induction d; simpl; try rewrite IHd; reflexivity.
Qed.

Lemma to_string_numeric (z : Z) :
  all_chars numeric_char (Int32.to_string z) = true.
Proof.
  unfold Int32.to_string, NilZero.string_of_int.
  assert (Hu : forall d, all_chars numeric_char (NilZero.string_of_uint d)
                         = true).
  { intros d. destruct d; try apply uint_text_numeric. reflexivity. }
  destruct (Z.to_int z); simpl; rewrite Hu; reflexivity.
Qed.

Lemma to_string_not_empty (z : Z) : Int32.to_string z <> EmptyString.
Proof.
  unfold Int32.to_string, NilZero.string_of_int.
  destruct (Z.to_int z) as [d | d]; [| discriminate].
  destruct d; discriminate.
Qed.

Lemma to_int_not_nil (z : Z) :
  Z.to_int z <> Decimal.Pos Decimal.Nil /\
  Z.to_int z <> Decimal.Neg Decimal.Nil.
Proof.
  destruct z as [| q | q]; simpl; split; intros H;
    try discriminate H; injection H as H;
    now apply (Unsigned.to_uint_nonnil q).
Qed.

Lemma to_string_injective (a b : Z) :
  Int32.to_string a = Int32.to_string b -> a = b.
Proof.
  unfold Int32.to_string. intros H.
  apply DecimalZ.to_int_inj.
  destruct (to_int_not_nil a) as [Ha1 Ha2].
  destruct (to_int_not_nil b) as [Hb1 Hb2].
  pose proof (NilZero.isi _ Ha1 Ha2) as Pa.
  pose proof (NilZero.isi _ Hb1 Hb2) as Pb.
  rewrite H in Pa. congruence.
Qed.

Lemma number_prefix_unique (a1 a2 r1 r2 : string) :
  all_chars numeric_char a1 = true ->
  all_chars numeric_char a2 = true ->
  starts_outside r1 -> starts_outside r2 ->
  a1 ++ r1 = a2 ++ r2 -> a1 = a2 /\ r1 = r2.
Proof.
  revert a2. induction a1 as [| c1 a1 IH]; intros a2 H1 H2 Hr1 Hr2 Heq;
    destruct a2 as [| c2 a2]; simpl in *.
  - now split.
  - destruct Hr1 as (c & rest & -> & Hc).
    injection Heq as -> _.
    apply andb_prop in H2. destruct H2 as [H2 _]. congruence.
  - destruct Hr2 as (c & rest & -> & Hc).
    injection Heq as -> _.
    apply andb_prop in H1. destruct H1 as [H1 _]. congruence.
  - injection Heq as -> Heq.
    apply andb_prop in H1. destruct H1 as [_ H1].
    apply andb_prop in H2. destruct H2 as [_ H2].
    destruct (IH a2 H1 H2 Hr1 Hr2 Heq) as [-> ->]. now split.
Qed.

Lemma separated_tail_outside (l : list Z) :
  starts_outside (separated l ++ "]").
Proof.
  destruct l as [| d rest]; simpl; do 2 eexists; split; reflexivity.
Qed.

Lemma separated_injective (l1 l2 : list Z) :
  separated l1 ++ "]" = separated l2 ++ "]" -> l1 = l2.
Proof.
  revert l2. induction l1 as [| d1 r1 IH]; intros [| d2 r2];
    cbn [separated]; intros H.
  - reflexivity.
  - discriminate H.
  - discriminate H.
  - rewrite !string_app_assoc in H.
    simpl in H. injection H as H.
    apply number_prefix_unique in H;
      try apply to_string_numeric; try apply separated_tail_outside.
    destruct H as [Hd Hr].
    apply to_string_injective in Hd. apply IH in Hr. congruence.
Qed.

Lemma shape_text_injective (l1 l2 : list Z) :
  shape_text l1 = shape_text l2 -> l1 = l2.
Proof.
  unfold shape_text.
  destruct l1 as [| d1 r1]; destruct l2 as [| d2 r2];
    rewrite ?concat_separated; intros H.
  - reflexivity.
  - simpl in H. injection H as H.
    rewrite string_app_assoc in H.
    apply (number_prefix_unique EmptyString) in H;
      try apply to_string_numeric; try apply separated_tail_outside;
      try reflexivity.
    + destruct H as [H _]. symmetry in H.
      now apply to_string_not_empty in H.
    + do 2 eexists. split; reflexivity.
  - simpl in H. injection H as H.
    rewrite string_app_assoc in H.
    apply (number_prefix_unique _ EmptyString) in H;
      try apply to_string_numeric; try apply separated_tail_outside;
      try reflexivity.
    + destruct H as [H _]. now apply to_string_not_empty in H.
    + do 2 eexists. split; reflexivity.
  - simpl in H. injection H as H.
    rewrite !string_app_assoc in H.
    apply number_prefix_unique in H;
      try apply to_string_numeric; try apply separated_tail_outside.
    destruct H as [Hd Hr].
    apply to_string_injective in Hd. apply separated_injective in Hr.
    congruence.
Qed.

(** X10: what [print_shape] writes determines the shape: if the calls
    for two tensors, from the same state, leave the same output, the two
    shapes are equal. *)
Theorem print_shape_output_determines_shape (x y : Tensor)
    (w wx wy : World) :
  Z.of_nat (List.length (shape x)) <= Int32.INT_MAX ->
  Z.of_nat (List.length (shape y)) <= Int32.INT_MAX ->
  print_shape x w = Returned tt wx ->
  print_shape y w = Returned tt wy ->
  cout wx = cout wy ->
  shape x = shape y.
Proof.
  intros Hx Hy Rx Ry Hout.
  rewrite print_shape_run in Rx by exact Hx.
  rewrite print_shape_run in Ry by exact Hy.
  injection Rx as <-. injection Ry as <-.
  cbn [cout] in Hout.
  apply string_app_inv_head in Hout.
  now apply shape_text_injective.
Qed.

Lemma print_shape_output_determines_shape_witness :
  shape sample_tensor = shape (mkTensor [2; 3; 4]).
Proof.
  apply (print_shape_output_determines_shape
           sample_tensor (mkTensor [2; 3; 4]) sample_world
           (mkWorld sample_object "[2, 3, 4]" [])
           (mkWorld sample_object "[2, 3, 4]" []));
    try reflexivity; vm_compute; discriminate.
Defined.

(** ** More on the declarations *)

Section MoreDeclFacts.

Import Decl.

(** X11: every public entry point returns the energy as a
    [std::vector<double>], in the [float] overloads as well; its other
    floating-point parameters all have one element type, [double] or
    [float], and the atom types are a [std::vector<int>]. *)
Theorem entry_points_precision :
  Forall (fun w : method =>
            takes w mutable_ref (Tvector Edouble) "ener" /\
            takes w const_ref (Tvector Eint) "atype" /\
            exists v : elem,
              (v = Edouble \/ v = Efloat) /\
              Forall (takes w mutable_ref (Tvector v))
                     ["force"; "virial"; "atom_energy"; "atom_virial"] /\
              Forall (takes w const_ref (Tvector v))
                     ["coord"; "box"; "fparam"; "aparam"])
         entry_points.
Proof.
  assert (H : forall v, v = Edouble \/ v = Efloat ->
              forall w, In w [computew_decl v; computew_nlist_decl v;
                              computew_mixed_type_decl v] ->
              takes w mutable_ref (Tvector Edouble) "ener" /\
              takes w const_ref (Tvector Eint) "atype" /\
              exists v : elem,
                (v = Edouble \/ v = Efloat) /\
                Forall (takes w mutable_ref (Tvector v))
                       ["force"; "virial"; "atom_energy"; "atom_virial"] /\
                Forall (takes w const_ref (Tvector v))
                       ["coord"; "box"; "fparam"; "aparam"]).
  { intros v Hv w Hw.
    assert (Hin : forall how t n, In (mkParam how t n) (mparams w) ->
                                  takes w how t n) by (intros; assumption).
    simpl in Hw. destruct Hw as [<- | [<- | [<- | []]]];
      (split; [apply Hin; simpl; tauto |]);
      (split; [apply Hin; simpl; tauto |]);
      exists v; (split; [exact Hv |]);
      split; repeat (apply Forall_cons; [apply Hin; simpl; tauto |]);
      apply Forall_nil. }
  rewrite entry_points_are_the_wrappers.
  repeat (apply Forall_cons;
          [ first [ apply (H Edouble); [left; reflexivity | simpl; tauto]
                  | apply (H Efloat); [right; reflexivity | simpl; tauto] ]
          | ]).
  apply Forall_nil.
Qed.

(** X12: the template instance an entry point forwards to has the
    parameter list of the entry point: the same types, passed the same
    way, position by position. *)
Theorem forward_target_has_same_signature :
  Forall (fun w : method =>
            exists t : method,
              forward_targets w = [t] /\
              method_signature t = method_signature w)
         entry_points.
Proof.
  rewrite entry_points_are_the_wrappers.
  repeat (apply Forall_cons; [eexists; split; reflexivity |]).
  apply Forall_nil.
Qed.

End MoreDeclFacts.
